(** * Shallow embedding of [warehouse/sessions.py]

    The Python module keeps per-visitor state in a [Session] (a [dict]
    subclass with dirty tracking), loads it in
    [SessionFactory._process_request] from a signed cookie and a Redis
    blob, and persists it in [SessionFactory._process_response].

    Modelling choices:
    - Python values that can live in a session are [pyval]; a Python [dict]
      is an association list in insertion order ([dict]), as CPython keeps it.
    - Python [str] and [bytes] are both Rocq [string]s (byte sequences);
      [str.encode("utf8")] and [bytes.decode("utf8")] are external functions.
    - The collaborators that the module imports (itsdangerous signer via
      [warehouse.utils.crypto], msgpack, HMAC-SHA-512, the random token
      generator) are the fields of the record [Externals].
    - Python exceptions are the [exn] type; an operation that may raise
      returns a [result].
    - Session methods run in the state monad [M] over the [Session] object
      and the outside [World] (clock, random seed, Redis contents and the
      log of Redis writes). *)

From Stdlib Require Import String List ZArith Bool Lia.
Import ListNotations.
Open Scope string_scope.
Open Scope list_scope.
Open Scope Z_scope.
Set Warnings "-register-all".

(** ** Python values and dictionaries *)

Inductive pyval : Type :=
| PNone
| PBool (b : bool)
| PInt (z : Z)
| PStr (s : string)
| PBytes (b : string)
| PList (l : list pyval)
| PDict (d : list (string * pyval)).

(** A [dict] with [str] keys, in insertion order. *)
Definition dict := list (string * pyval).

Fixpoint dict_get (d : dict) (k : string) : option pyval :=
  match d with
  | [] => None
  | (k', v) :: d' => if String.eqb k k' then Some v else dict_get d' k
  end.

(** [d[k] = v]: an existing key keeps its position, a new key goes last. *)
Fixpoint dict_set (d : dict) (k : string) (v : pyval) : dict :=
  match d with
  | [] => [(k, v)]
  | (k', v') :: d' =>
      if String.eqb k k' then (k', v) :: d' else (k', v') :: dict_set d' k v
  end.

(** Removal of a key; [None] when the key is absent. *)
Fixpoint dict_remove (d : dict) (k : string) : option dict :=
  match d with
  | [] => None
  | (k', v') :: d' =>
      if String.eqb k k' then Some d'
      else option_map (fun r => (k', v') :: r) (dict_remove d' k)
  end.

(** [dict(iterable)] / [dict.update(other)]: later pairs overwrite
    earlier ones. *)
Definition dict_update (d : dict) (other : list (string * pyval)) : dict :=
  fold_left (fun acc kv => dict_set acc (fst kv) (snd kv)) other d.

(** ** Python exceptions and results *)

Inductive exn : Type :=
| KeyError
| TypeError
| AttributeError
| UnicodeDecodeError
| ValueError.

Inductive result (A : Type) : Type :=
| Ok (a : A)
| Err (e : exn).
Arguments Ok {A} a.
Arguments Err {A} e.

(** The characters of a [str] held as UTF-8 bytes: a new character starts
    at every byte that is not a continuation byte ([10xxxxxx]). *)
Fixpoint utf8_chars_acc (cur : string) (s : string) : list string :=
  match s with
  | EmptyString => match cur with EmptyString => [] | _ => [cur] end
  | String c s' =>
      if (Ascii.nat_of_ascii c <? 128)%nat || (192 <=? Ascii.nat_of_ascii c)%nat
      then match cur with
           | EmptyString => utf8_chars_acc (String c EmptyString) s'
           | _ => cur :: utf8_chars_acc (String c EmptyString) s'
           end
      else utf8_chars_acc (cur ++ String c EmptyString) s'
  end.
Definition utf8_chars (s : string) : list string := utf8_chars_acc EmptyString s.

(** [dict(data)] as called by [dict.__init__] in [Session.__init__]
    (CPython's [dict_merge] and [PyDict_MergeFromSeq2]): a mapping is copied;
    any other value is iterated, and each element must itself be an iterable
    of exactly two items, a key and a value. The first bad element decides
    the exception: one that is not iterable raises [TypeError], one of another
    length [ValueError], an unhashable key ([list], [dict]) [TypeError].
    Iterating a [str] gives its one-character [str]s, iterating [bytes] gives
    [int]s, iterating a [dict] gives its keys. Keys that are hashable but not
    [str] ([int], [bytes], [None], [bool]) lie outside the [str]-keyed model
    of a session's data; such a pair is rejected with [TypeError] here. *)
Definition pair_of (v : pyval) : result (string * pyval) :=
  match v with
  | PNone | PBool _ | PInt _ => Err TypeError
  | PStr s =>
      match utf8_chars s with
      | [a; b] => Ok (a, PStr b)
      | _ => Err ValueError
      end
  | PBytes s =>
      match s with
      | String _ (String _ EmptyString) => Err TypeError
      | _ => Err ValueError
      end
  | PList [k; x] =>
      match k with
      | PStr ks => Ok (ks, x)
      | _ => Err TypeError
      end
  | PList _ => Err ValueError
  | PDict d =>
      match dict_update [] d with
      | [(k1, _); (k2, _)] => Ok (k1, PStr k2)
      | _ => Err ValueError
      end
  end.

Fixpoint pairs_of (l : list pyval) : result (list (string * pyval)) :=
  match l with
  | [] => Ok []
  | x :: l' =>
      match pair_of x with
      | Err e => Err e
      | Ok p =>
          match pairs_of l' with
          | Ok ps => Ok (p :: ps)
          | Err e => Err e
          end
      end
  end.

Definition dict_of (v : pyval) : result dict :=
  match v with
  | PDict d => Ok (dict_update [] d)
  | PList l =>
      match pairs_of l with
      | Ok ps => Ok (dict_update [] ps)
      | Err e => Err e
      end
  | PStr EmptyString | PBytes EmptyString => Ok []
  | PStr _ => Err ValueError
  | PBytes _ => Err TypeError
  | PNone | PBool _ | PInt _ => Err TypeError
  end.

(** The outcome of [msgpack.unpackb(bdata, encoding="utf8", use_list=True)]:
    a decoded value, one of the two exceptions that [_process_request]
    catches ([UnpackException], [ExtraData]), or an exception it does not
    catch, such as [UnicodeDecodeError] for a packed [str] that is not valid
    UTF-8, or, from msgpack 0.6 on, [ValueError] for truncated input. *)
Inductive unpack_outcome : Type :=
| Unpacked (v : pyval)
| UnpackCaught
| UnpackRaises (e : exn).

(** ** External collaborators *)

Record Externals : Type := {
  (** [crypto.random_token()], drawn from a seed that the world advances *)
  random_token : nat -> string;
  (** [str.encode("utf8")] and [bytes.decode("utf8")] ([None]: raises
      [UnicodeDecodeError]) *)
  utf8_encode : string -> string;
  utf8_decode : string -> option string;
  (** [TimestampSigner(secret, salt="session")]: [sign now payload] and
      [unsign now max_age token]; [None] is a raised [BadSignature]
      (bad signature, malformed token, or [SignatureExpired]) *)
  sign : Z -> string -> string;
  unsign : Z -> Z -> string -> option string;
  (** [msgpack.packb] and [msgpack.unpackb] *)
  packb : pyval -> string;
  unpackb : string -> unpack_outcome;
  (** [hmac.new(key, msg, "sha512").hexdigest()] *)
  hmac_sha512_hexdigest : string -> string -> string
}.

(** ** The world: clock, randomness, Redis *)

Inductive redis_cmd : Type :=
| RSetex (key : string) (ttl : Z) (value : string)
| RDelete (key : string).

Record World : Type := mkWorld {
  w_now : Z;
  w_seed : nat;
  (** key |-> (blob, absolute expiry time) *)
  w_store : list (string * (string * Z));
  (** every Redis write, oldest first *)
  w_log : list redis_cmd
}.

Fixpoint store_get (st : list (string * (string * Z))) (k : string)
  : option (string * Z) :=
  match st with
  | [] => None
  | (k', e) :: st' => if String.eqb k k' then Some e else store_get st' k
  end.

Definition store_del (st : list (string * (string * Z))) (k : string) :=
  filter (fun e => negb (String.eqb k (fst e))) st.

(** [redis.get]: a key whose TTL has run out is gone. *)
Definition redis_get (w : World) (k : string) : option string :=
  match store_get (w_store w) k with
  | Some (blob, exp) => if w_now w <? exp then Some blob else None
  | None => None
  end.

Definition redis_setex_w (k : string) (ttl : Z) (v : string) (w : World) :=
  mkWorld (w_now w) (w_seed w)
    ((k, (v, w_now w + ttl)) :: store_del (w_store w) k)
    (w_log w ++ [RSetex k ttl v]).

Definition redis_delete_w (k : string) (w : World) :=
  mkWorld (w_now w) (w_seed w) (store_del (w_store w) k)
    (w_log w ++ [RDelete k]).

(** ** The [Session] object *)

Record Session : Type := mkSession {
  data : dict;
  _sid : option string;
  _changed : bool;
  new : bool;
  created : Z;
  invalidated : bool
}.

Definition set_data (d : dict) (s : Session) :=
  mkSession d (_sid s) (_changed s) (new s) (created s) (invalidated s).
Definition set_sid (x : option string) (s : Session) :=
  mkSession (data s) x (_changed s) (new s) (created s) (invalidated s).
Definition set_changed (b : bool) (s : Session) :=
  mkSession (data s) (_sid s) b (new s) (created s) (invalidated s).
Definition set_new (b : bool) (s : Session) :=
  mkSession (data s) (_sid s) (_changed s) b (created s) (invalidated s).
Definition set_created (t : Z) (s : Session) :=
  mkSession (data s) (_sid s) (_changed s) (new s) t (invalidated s).
Definition set_invalidated (b : bool) (s : Session) :=
  mkSession (data s) (_sid s) (_changed s) (new s) (created s) b.

(** [Session.__init__(data=None, session_id=None, new=True)] at time [now]. *)
Definition Session_init (d : pyval) (session_id : option string) (new : bool)
  (now : Z) : result Session :=
  match d with
  | PNone => Ok (mkSession [] session_id false new now false)
  | _ =>
      match dict_of d with
      | Ok dd => Ok (mkSession dd session_id false new now false)
      | Err e => Err e
      end
  end.

(** [Session()]: the brand-new empty session. *)
Definition Session_new (now : Z) : Session :=
  mkSession [] None false true now false.

(** ** The state monad of session methods *)

Definition M (A : Type) : Type :=
  Session -> World -> result A * Session * World.

Definition ret {A} (a : A) : M A := fun s w => (Ok a, s, w).

Definition bind {A B} (m : M A) (k : A -> M B) : M B :=
  fun s w =>
    match m s w with
    | (Ok a, s', w') => k a s' w'
    | (Err e, s', w') => (Err e, s', w')
    end.

Notation "x <- m ;; k" := (bind m (fun x => k))
  (at level 61, m at next level, right associativity).
Notation "m ;;; k" := (bind m (fun _ => k))
  (at level 61, right associativity).

Definition raise {A} (e : exn) : M A := fun s w => (Err e, s, w).
Definition get_self : M Session := fun s w => (Ok s, s, w).
Definition modify_self (f : Session -> Session) : M unit :=
  fun s w => (Ok tt, f s, w).
Definition modify_world (f : World -> World) : M unit :=
  fun s w => (Ok tt, s, f w).
Definition time_now : M Z := fun s w => (Ok (w_now w), s, w).

Section Methods.
Variable X : Externals.

(** [crypto.random_token()] *)
Definition crypto_random_token : M string :=
  fun s w =>
    (Ok (random_token X (w_seed w)), s,
     mkWorld (w_now w) (S (w_seed w)) (w_store w) (w_log w)).

(** [Session.changed] and the [_changed_method] decorator. *)
Definition changed : M unit := modify_self (set_changed true).
Definition _changed_method {A} (m : M A) : M A := changed ;;; m.

(** The seven wrapped [dict] mutators. *)
Definition __setitem__ (k : string) (v : pyval) : M unit :=
  _changed_method
    (s <- get_self ;; modify_self (set_data (dict_set (data s) k v))).

Definition __delitem__ (k : string) : M unit :=
  _changed_method
    (s <- get_self ;;
     match dict_remove (data s) k with
     | Some d => modify_self (set_data d)
     | None => raise KeyError
     end).

Definition clear : M unit := _changed_method (modify_self (set_data [])).

(** [pop(k)] when [default = None], [pop(k, default)] otherwise. *)
Definition pop (k : string) (default : option pyval) : M pyval :=
  _changed_method
    (s <- get_self ;;
     match dict_get (data s) k, dict_remove (data s) k with
     | Some v, Some d => modify_self (set_data d) ;;; ret v
     | _, _ =>
         match default with
         | Some dv => ret dv
         | None => raise KeyError
         end
     end).

(** [popitem()] removes the most recently inserted pair. *)
Definition popitem : M (string * pyval) :=
  _changed_method
    (s <- get_self ;;
     match rev (data s) with
     | kv :: rest => modify_self (set_data (rev rest)) ;;; ret kv
     | [] => raise KeyError
     end).

Definition setdefault (k : string) (default : pyval) : M pyval :=
  _changed_method
    (s <- get_self ;;
     match dict_get (data s) k with
     | Some v => ret v
     | None => modify_self (set_data (dict_set (data s) k default)) ;;; ret default
     end).

Definition update (other : dict) : M unit :=
  _changed_method
    (s <- get_self ;; modify_self (set_data (dict_update (data s) other))).

(** Non-mutating reads inherited from [dict]. *)
Definition __getitem__ (k : string) : M pyval :=
  s <- get_self ;;
  match dict_get (data s) k with
  | Some v => ret v
  | None => raise KeyError
  end.

Definition get (k : string) (default : pyval) : M pyval :=
  s <- get_self ;;
  match dict_get (data s) k with
  | Some v => ret v
  | None => ret default
  end.

(** The [sid] property: generated lazily, then fixed. *)
Definition sid : M string :=
  s <- get_self ;;
  match _sid s with
  | Some x => ret x
  | None => t <- crypto_random_token ;; modify_self (set_sid (Some t)) ;;; ret t
  end.

(** [del session.sid] *)
Definition del_sid : M unit := modify_self (set_sid None).

Definition invalidate : M unit :=
  clear ;;;
  modify_self (set_new true) ;;;
  t <- time_now ;;
  modify_self (set_created t) ;;;
  modify_self (set_invalidated true) ;;;
  modify_self (set_changed false).

Definition should_save : M bool := s <- get_self ;; ret (_changed s).

End Methods.

(** ** Flash messages and CSRF tokens *)

(** [msg in container] for a [str] message. *)
Definition py_contains (container : pyval) (msg : string) : result bool :=
  match container with
  | PList l =>
      Ok (existsb (fun x => match x with PStr y => String.eqb y msg | _ => false end) l)
  | PStr y => Ok (match String.index 0 msg y with Some _ => true | None => false end)
  | PDict d => Ok (match dict_get d msg with Some _ => true | None => false end)
  | _ => Err TypeError
  end.

Definition lift_result {A} (r : result A) : M A :=
  match r with Ok a => ret a | Err e => raise e end.

Section Session_methods.
Variable X : Externals.

Definition _csrf_token_key : string := "_csrf_token".
Definition _flash_key : string := "_flash_messages".

(** [".".join(filter(None, [self._flash_key, queue]))] *)
Definition _get_flash_queue_key (queue : string) : string :=
  match queue with
  | EmptyString => _flash_key
  | _ => _flash_key ++ "." ++ queue
  end.

(** [self.setdefault(queue_key, []).append(msg)]: [append] mutates the list
    object stored in the dictionary. *)
Definition flash_append (queue_key msg : string) : M unit :=
  lst <- setdefault queue_key (PList []) ;;
  match lst with
  | PList l =>
      s <- get_self ;;
      modify_self (set_data (dict_set (data s) queue_key (PList (l ++ [PStr msg]))))
  | _ => raise AttributeError
  end.

Definition flash (msg : string) (queue : string) (allow_duplicate : bool)
  : M unit :=
  let queue_key := _get_flash_queue_key queue in
  if allow_duplicate then flash_append queue_key msg
  else
    q <- __getitem__ queue_key ;;
    present <- lift_result (py_contains q msg) ;;
    if present then ret tt else flash_append queue_key msg.

Definition peek_flash (queue : string) : M pyval :=
  get (_get_flash_queue_key queue) (PList []).

Definition pop_flash (queue : string) : M pyval :=
  let queue_key := _get_flash_queue_key queue in
  messages <- get queue_key (PList []) ;;
  pop queue_key (Some PNone) ;;;
  ret messages.

Definition new_csrf_token : M pyval :=
  t <- crypto_random_token X ;;
  __setitem__ _csrf_token_key (PStr t) ;;;
  __getitem__ _csrf_token_key.

Definition get_csrf_token : M pyval :=
  token <- get _csrf_token_key PNone ;;
  match token with
  | PNone => new_csrf_token
  | _ => ret token
  end.

(** [v.encode("utf8")]: only a [str] has [encode]. *)
Definition encode_utf8 (v : pyval) : M string :=
  match v with
  | PStr s => ret (utf8_encode X s)
  | _ => raise AttributeError
  end.

Definition get_scoped_csrf_token (scope : string) : M string :=
  tok <- get_csrf_token ;;
  unscoped <- encode_utf8 tok ;;
  let scope_b := utf8_encode X scope in
  let scoped := utf8_encode X (hmac_sha512_hexdigest X unscoped scope_b) in
  i <- sid X ;;
  ret (hmac_sha512_hexdigest X scoped (utf8_encode X i)).

Definition has_csrf_token : M bool :=
  s <- get_self ;;
  ret (match dict_get (data s) _csrf_token_key with Some _ => true | None => false end).

End Session_methods.

(** ** [SessionFactory] *)

Definition cookie_name : string := "session_id".
Definition max_age : Z := 12 * 60 * 60.

Definition _redis_key (session_id : string) : string :=
  "warehouse/session/data/" ++ session_id.

Record Request : Type := mkRequest {
  cookies : list (string * string);
  scheme : string
}.

Fixpoint cookie_get (c : list (string * string)) (k : string) : option string :=
  match c with
  | [] => None
  | (k', v) :: c' => if String.eqb k k' then Some v else cookie_get c' k
  end.

Inductive cookie_action : Type :=
| DeleteCookie (name : string)
| SetCookie (name value : string) (max_age : Z) (httponly secure : bool).

Section Factory.
Variable X : Externals.

(** [_process_request]; registering the response callback has no effect on
    the returned session and is left out. Reads do not change the world. *)
Definition _process_request (request : Request) (w : World) : result Session :=
  match cookie_get (cookies request) cookie_name with
  | None => Ok (Session_new (w_now w))
  | Some tok =>
      match unsign X (w_now w) max_age tok with
      | None => Ok (Session_new (w_now w))
      | Some b =>
          match utf8_decode X b with
          | None => Err UnicodeDecodeError
          | Some session_id =>
              match redis_get w (_redis_key session_id) with
              | None => Ok (Session_new (w_now w))
              | Some bdata =>
                  match unpackb X bdata with
                  | UnpackCaught => Ok (Session_new (w_now w))
                  | UnpackRaises e => Err e
                  | Unpacked d => Session_init d (Some session_id) true (w_now w)
                  end
              end
          end
      end
  end.

Definition redis_setex (k : string) (ttl : Z) (v : string) : M unit :=
  modify_world (redis_setex_w k ttl v).
Definition redis_delete (k : string) : M unit :=
  modify_world (redis_delete_w k).

(** [_process_response]; the session is the monad's state and the cookie
    instructions given to the response are returned. *)
Definition _process_response (request : Request) : M (list cookie_action) :=
  s <- get_self ;;
  acts <- (if invalidated s then
             i <- sid X ;;
             redis_delete (_redis_key i) ;;;
             del_sid ;;;
             ss <- should_save ;;
             if ss then ret [] else ret [DeleteCookie cookie_name]
           else ret []) ;;
  ss <- should_save ;;
  if ss then
    i <- sid X ;;
    s' <- get_self ;;
    redis_setex (_redis_key i) max_age (packb X (PDict (data s'))) ;;;
    i' <- sid X ;;
    t <- time_now ;;
    ret (acts ++ [SetCookie cookie_name (sign X t (utf8_encode X i')) max_age
                   true (String.eqb (scheme request) "https")])
  else ret acts.

End Factory.

(** ** The request layer: [session_tween_factory], [uses_session] and
    [InvalidSession]

    [request.session] and [request._session] are references to session
    objects: the one real [Session] of the request ([RealRef], whose state is
    [rq_obj]) or an [InvalidSession()] placeholder ([InvalidRef]). The real
    session is taken as already loaded by the session factory. A view or
    handler is a computation [RM] over the request; it may raise a Python
    exception of a session method ([PyExn]) or the [RuntimeError] of
    [InvalidSession._error_message]. *)

Inductive sref : Type :=
| RealRef
| InvalidRef.

Inductive rexn : Type :=
| PyExn (e : exn)
| RuntimeError.

Inductive rresult (A : Type) : Type :=
| ROk (a : A)
| RErr (e : rexn).
Arguments ROk {A} a.
Arguments RErr {A} e.

Record ReqState : Type := mkReqState {
  rq_obj : Session;
  rq_world : World;
  (** [request.session] *)
  rq_session : sref;
  (** [request._session]; [None] while the attribute is unset *)
  rq__session : option sref;
  (** Vary headers registered through [add_vary] response callbacks *)
  rq_vary : list string
}.

Definition RM (A : Type) : Type := ReqState -> rresult A * ReqState.

Definition set_rq_session (x : sref) (r : ReqState) :=
  mkReqState (rq_obj r) (rq_world r) x (rq__session r) (rq_vary r).
Definition set_rq__session (x : option sref) (r : ReqState) :=
  mkReqState (rq_obj r) (rq_world r) (rq_session r) x (rq_vary r).

(** A session method called through [request.session]: on the real session
    it runs the method; every method and attribute of [InvalidSession]
    raises [RuntimeError] (the [_invalid_method] wrappers and
    [__getattr__]). *)
Definition with_session {A} (m : M A) : RM A :=
  fun r =>
    match rq_session r with
    | InvalidRef => (RErr RuntimeError, r)
    | RealRef =>
        let '(o, s', w') := m (rq_obj r) (rq_world r) in
        let r' := mkReqState s' w' (rq_session r) (rq__session r) (rq_vary r) in
        match o with
        | Ok a => (ROk a, r')
        | Err e => (RErr (PyExn e), r')
        end
    end.

(** [add_vary("Cookie")] (from [warehouse.utils.http]) registers a response
    callback adding [Cookie] to the [Vary] header before calling the view;
    the registration is recorded in [rq_vary]. *)
Definition add_vary_cookie {A} (view : RM A) : RM A :=
  fun r =>
    view (mkReqState (rq_obj r) (rq_world r) (rq_session r) (rq__session r)
            (rq_vary r ++ ["Cookie"])).

(** [uses_session(view)]: [request.session = request._session], then the
    view; the whole is wrapped by [add_vary("Cookie")]. Reading an unset
    [request._session] raises [AttributeError]. *)
Definition uses_session {A} (view : RM A) : RM A :=
  add_vary_cookie
    (fun r =>
       match rq__session r with
       | None => (RErr (PyExn AttributeError), r)
       | Some x => view (set_rq_session x r)
       end).

(** [session_tween_factory(handler, registry)] applied to a request:
    stash the real session in [request._session], install
    [InvalidSession()], run the handler, and in [finally] put
    [request._session] back into [request.session]. *)
Definition session_tween {A} (handler : RM A) : RM A :=
  fun r =>
    let r1 := set_rq_session InvalidRef (set_rq__session (Some (rq_session r)) r) in
    let '(o, r2) := handler r1 in
    match rq__session r2 with
    | Some x => (o, set_rq_session x r2)
    | None => (RErr (PyExn AttributeError), r2)
    end.

(** ** Scenario helpers *)

(** The mutating [dict] calls of a [Session], as one type. *)
Inductive mutation : Type :=
| MSetitem (k : string) (v : pyval)
| MDelitem (k : string)
| MClear
| MPop (k : string) (default : option pyval)
| MPopitem
| MSetdefault (k : string) (default : pyval)
| MUpdate (other : dict).

Definition run_mutation (op : mutation) : M unit :=
  match op with
  | MSetitem k v => __setitem__ k v
  | MDelitem k => __delitem__ k
  | MClear => clear
  | MPop k d => pop k d ;;; ret tt
  | MPopitem => popitem ;;; ret tt
  | MSetdefault k d => setdefault k d ;;; ret tt
  | MUpdate o => update o
  end.

(** [for k, v in m.items(): session[k] = v] *)
Fixpoint set_all (m : dict) : M unit :=
  match m with
  | [] => ret tt
  | (k, v) :: m' => __setitem__ k v ;;; set_all m'
  end.

(** What a browser holds under [cookie_name] after applying the cookie
    instructions of a response. *)
Fixpoint cookie_after (c : option string) (acts : list cookie_action)
  : option string :=
  match acts with
  | [] => c
  | DeleteCookie n :: acts' =>
      cookie_after (if String.eqb n cookie_name then None else c) acts'
  | SetCookie n v _ _ _ :: acts' =>
      cookie_after (if String.eqb n cookie_name then Some v else c) acts'
  end.

Definition request_with_cookie (c : option string) (sch : string) : Request :=
  mkRequest (match c with Some v => [(cookie_name, v)] | None => [] end) sch.

(** A new session gets the entries of [m]; the response is processed for
    request [r1]; at time [now'] a request presenting the resulting cookie
    is loaded; the loaded session's data is returned. *)
Definition roundtrip (X : Externals) (m : dict) (r1 : Request) (w : World)
  (now' : Z) : result dict :=
  match (set_all m ;;; _process_response X r1) (Session_new (w_now w)) w with
  | (Ok acts, _, w1) =>
      let r2 := request_with_cookie (cookie_after None acts) (scheme r1) in
      match _process_request X r2 (mkWorld now' (w_seed w1) (w_store w1) (w_log w1)) with
      | Ok s => Ok (data s)
      | Err e => Err e
      end
  | (Err e, _, _) => Err e
  end.

(** A concrete instance of the collaborators: an identity signer and
    encoder, and a one-value serializer. *)
Definition toyX : Externals := {|
  random_token := fun n => String (Ascii.ascii_of_nat (97 + n)) EmptyString;
  utf8_encode := fun s => s;
  utf8_decode := fun s => Some s;
  sign := fun _ b => b;
  unsign := fun _ _ tok => Some tok;
  packb := fun _ => "blob"%string;
  unpackb := fun b => if String.eqb b "blob"%string then Unpacked (PDict [("counter", PInt 1)]) else UnpackCaught;
  hmac_sha512_hexdigest := fun k m => (k ++ "|" ++ m)%string
|}.

Definition toyX_latin1 : Externals := {|
  random_token := random_token toyX;
  utf8_encode := utf8_encode toyX;
  utf8_decode := fun _ => None;
  sign := sign toyX;
  unsign := unsign toyX;
  packb := packb toyX;
  unpackb := unpackb toyX;
  hmac_sha512_hexdigest := hmac_sha512_hexdigest toyX
|}.

Definition toyX_int : Externals := {|
  random_token := random_token toyX;
  utf8_encode := utf8_encode toyX;
  utf8_decode := utf8_decode toyX;
  sign := sign toyX;
  unsign := unsign toyX;
  packb := packb toyX;
  unpackb := fun _ => Unpacked (PInt 5);
  hmac_sha512_hexdigest := hmac_sha512_hexdigest toyX
|}.

(** The Redis blob [b"\xa2\xff\xfe"]: the msgpack header of a two-byte
    [str] followed by two bytes that are not UTF-8. *)
Definition corrupt_blob : string :=
  String (Ascii.ascii_of_nat 162)
    (String (Ascii.ascii_of_nat 255) (String (Ascii.ascii_of_nat 254) EmptyString)).

(** A serializer that, as [msgpack.unpackb(..., encoding="utf8")] does,
    raises [UnicodeDecodeError] on [corrupt_blob]. *)
Definition toyX_corrupt : Externals := {|
  random_token := random_token toyX;
  utf8_encode := utf8_encode toyX;
  utf8_decode := utf8_decode toyX;
  sign := sign toyX;
  unsign := unsign toyX;
  packb := packb toyX;
  unpackb := fun b => if String.eqb b corrupt_blob
                      then UnpackRaises UnicodeDecodeError else unpackb toyX b;
  hmac_sha512_hexdigest := hmac_sha512_hexdigest toyX
|}.

Definition w0 : World := mkWorld 100 0 [] [].

Example run_mutation_example :
  run_mutation (MSetitem "a" (PInt 1)) (Session_new 100) w0
  = (Ok tt, mkSession [("a", PInt 1)] None true true 100 false, w0).
Proof. reflexivity. Qed.

Example roundtrip_example :
  roundtrip toyX [("counter", PInt 1)] (mkRequest [] "https") w0 200
  = Ok [("counter", PInt 1)].
Proof. reflexivity. Qed.

(** ** Lemmas *)

Ltac unfold_monad :=
  unfold bind, ret, raise, get_self, modify_self, modify_world, time_now,
    lift_result in *.

Ltac unfold_methods :=
  unfold run_mutation, __setitem__, __delitem__, clear, pop, popitem,
    setdefault, update, _changed_method, changed, __getitem__, get, sid,
    del_sid, invalidate, should_save, crypto_random_token, peek_flash,
    has_csrf_token in *.

(** Case on the innermost scrutinees first, so no equation is lost. *)
Ltac crush_matches :=
  repeat (match goal with
          | |- context [match ?x with _ => _ end] =>
              lazymatch x with
              | context [match _ with _ => _ end] => fail
              | _ => destruct x
              end
          end; cbn).

Lemma should_save_eq (s : Session) (w : World) :
  should_save s w = (Ok (_changed s), s, w).
Proof. reflexivity. Qed.

(** Setting the entries of [m] one by one is [dict.update(m)], and marks the
    session dirty as soon as [m] has an entry. *)
Lemma set_all_eq (m : dict) (s : Session) (w : World) :
  set_all m s w =
  (Ok tt,
   mkSession (dict_update (data s) m) (_sid s)
     (match m with [] => _changed s | _ => true end)
     (new s) (created s) (invalidated s), w).
Proof.
  revert s. induction m as [| [k v] m IH]; intros s.
  - destruct s; reflexivity.
  - cbn [set_all]. unfold __setitem__, _changed_method, changed.
    unfold_monad. cbn -[dict_set]. rewrite IH. cbn -[dict_set].
    destruct m; reflexivity.
Qed.

Lemma dict_set_absent (d : dict) (k : string) (v : pyval) :
  dict_get d k = None -> dict_set d k v = d ++ [(k, v)].
Proof.
  induction d as [| [k' v'] d IH]; cbn; [reflexivity |].
  destruct (String.eqb k k'); [discriminate |].
  intros H. now rewrite (IH H).
Qed.

Lemma dict_get_app_absent (d : dict) (k k' : string) (v : pyval) :
  dict_get d k' = None -> k <> k' -> dict_get (d ++ [(k, v)]) k' = None.
Proof.
  induction d as [| [k0 v0] d IH]; cbn; intros H Hne.
  - destruct (String.eqb k' k) eqn:E; [| reflexivity].
    apply String.eqb_eq in E. congruence.
  - destruct (String.eqb k' k0); [discriminate |]. exact (IH H Hne).
Qed.

(** [dict(pairs)] of pairs with distinct fresh keys appends them in order. *)
Lemma dict_update_distinct (l : dict) (acc : dict) :
  NoDup (map fst l) ->
  (forall k, In k (map fst l) -> dict_get acc k = None) ->
  dict_update acc l = acc ++ l.
Proof.
  revert acc. induction l as [| [k v] l IH]; intros acc Hnd Hfresh.
  - cbn. now rewrite app_nil_r.
  - cbn in Hnd. inversion Hnd as [| ? ? Hnotin Hnd']; subst.
    unfold dict_update. cbn [fold_left fst snd].
    rewrite (dict_set_absent acc k v (Hfresh k (or_introl eq_refl))).
    fold (dict_update (acc ++ [(k, v)]) l).
    rewrite IH; [now rewrite <- app_assoc | exact Hnd' |].
    intros k' Hin. apply dict_get_app_absent.
    + apply Hfresh. now right.
    + intros ->. exact (Hnotin Hin).
Qed.

Lemma dict_update_nil (l : dict) :
  NoDup (map fst l) -> dict_update [] l = l.
Proof.
  intros H. rewrite (dict_update_distinct l [] H); [reflexivity |].
  intros; reflexivity.
Qed.

(** ** Claims *)

(** C4: every mutating [dict] call of a [Session] ([__setitem__],
    [__delitem__], [clear], [pop], [popitem], [setdefault], [update]) leaves
    [_changed = true], whatever its arguments and even when it raises or
    writes back an unchanged value; and [should_save] returns exactly the
    [_changed] flag. *)
Theorem C4_mutators_set_dirty :
  (forall (op : mutation) (s : Session) (w : World),
      _changed (snd (fst (run_mutation op s w))) = true) /\
  (forall (s : Session) (w : World), should_save s w = (Ok (_changed s), s, w)).
Proof.
  split; [| exact should_save_eq].
  intros op s w.
  destruct op; unfold_methods; unfold_monad; cbn; crush_matches; reflexivity.
Qed.

(** C5: after [invalidate] the data is empty, [new] is [true], [created] is
    the current time, [invalidated] is [true] and [_changed] is [false], so
    [should_save] answers [false]; the reads [get], [__getitem__],
    [peek_flash], [has_csrf_token] and the [sid] property leave that flag
    alone, so only a mutation turns it back on. *)
Theorem C5_invalidate_resets :
  forall (X : Externals) (s : Session) (w : World),
    let '(r, s', w') := invalidate s w in
    r = Ok tt /\ data s' = [] /\ new s' = true /\ created s' = w_now w /\
    invalidated s' = true /\ _changed s' = false /\
    fst (fst (should_save s' w')) = Ok false /\
    (forall k d s2 w2, _changed (snd (fst (get k d s2 w2))) = _changed s2) /\
    (forall k s2 w2, _changed (snd (fst (__getitem__ k s2 w2))) = _changed s2) /\
    (forall q s2 w2, _changed (snd (fst (peek_flash q s2 w2))) = _changed s2) /\
    (forall s2 w2, _changed (snd (fst (has_csrf_token s2 w2))) = _changed s2) /\
    (forall s2 w2, _changed (snd (fst (sid X s2 w2))) = _changed s2).
Proof.
  intros X s w. unfold_methods; unfold_monad; cbn.
  repeat split; intros; cbn; crush_matches; reflexivity.
Qed.

(** A missing cookie, a cookie the signer rejects (bad signature,
    malformed, or older than [max_age = 43200] seconds), an identifier with
    no live Redis entry, or a blob on which msgpack raises one of the two
    caught exceptions ([UnpackException], [ExtraData]) each make
    [_process_request] return the brand-new empty [Session()] (no data, no
    identifier) without raising. *)
Theorem process_request_fail_open :
  forall (X : Externals) (request : Request) (w : World),
    (cookie_get (cookies request) cookie_name = None \/
     (exists tok, cookie_get (cookies request) cookie_name = Some tok /\
                  unsign X (w_now w) 43200 tok = None) \/
     (exists tok b session_id,
         cookie_get (cookies request) cookie_name = Some tok /\
         unsign X (w_now w) 43200 tok = Some b /\
         utf8_decode X b = Some session_id /\
         redis_get w (_redis_key session_id) = None) \/
     (exists tok b session_id bdata,
         cookie_get (cookies request) cookie_name = Some tok /\
         unsign X (w_now w) 43200 tok = Some b /\
         utf8_decode X b = Some session_id /\
         redis_get w (_redis_key session_id) = Some bdata /\
         unpackb X bdata = UnpackCaught)) ->
    _process_request X request w = Ok (Session_new (w_now w)) /\
    data (Session_new (w_now w)) = [] /\ _sid (Session_new (w_now w)) = None.
Proof.
  intros X request w H.
  split; [| split; reflexivity].
  unfold _process_request.
  replace max_age with 43200 by reflexivity.
  destruct H as [H | [(tok & Hc & Hu) | [(tok & b & i & Hc & Hu & Hd & Hg)
                 | (tok & b & i & bd & Hc & Hu & Hd & Hg & Hp)]]].
  - now rewrite H.
  - now rewrite Hc, Hu.
  - now rewrite Hc, Hu, Hd, Hg.
  - now rewrite Hc, Hu, Hd, Hg, Hp.
Qed.

Lemma process_request_fail_open_witness :
  (exists tok b session_id bdata,
      cookie_get (cookies (request_with_cookie (Some "a") "https")) cookie_name = Some tok /\
      unsign toyX 100 43200 tok = Some b /\
      utf8_decode toyX b = Some session_id /\
      redis_get (mkWorld 100 1 [("warehouse/session/data/a", ("junk", 200))] [])
        (_redis_key session_id) = Some bdata /\
      unpackb toyX bdata = UnpackCaught) /\
  _process_request toyX (request_with_cookie (Some "a") "https")
    (mkWorld 100 1 [("warehouse/session/data/a", ("junk", 200))] [])
  = Ok (Session_new 100).
Proof.
  assert (H : exists tok b session_id bdata,
      cookie_get (cookies (request_with_cookie (Some "a") "https")) cookie_name = Some tok /\
      unsign toyX 100 43200 tok = Some b /\
      utf8_decode toyX b = Some session_id /\
      redis_get (mkWorld 100 1 [("warehouse/session/data/a", ("junk", 200))] [])
        (_redis_key session_id) = Some bdata /\
      unpackb toyX bdata = UnpackCaught)
    by (exists "a", "a", "a", "junk"; repeat split).
  split; [exact H |].
  apply (process_request_fail_open toyX (request_with_cookie (Some "a") "https")
           (mkWorld 100 1 [("warehouse/session/data/a", ("junk", 200))] [])).
  right. right. right. exact H.
Defined.

(** C3 (divergence): a cookie that verifies and names an identifier with a
    live Redis entry, whose blob makes msgpack raise an exception other than
    the two caught ones ([UnicodeDecodeError] for a packed [str] that is not
    UTF-8), is not degraded to [Session()]: [_process_request] raises that
    exception to its caller. *)
Theorem C3_corrupt_blob_raises :
  forall (X : Externals) (request : Request) (w : World) (tok b i bdata : string)
         (e : exn),
    cookie_get (cookies request) "session_id" = Some tok ->
    unsign X (w_now w) 43200 tok = Some b ->
    utf8_decode X b = Some i ->
    redis_get w ("warehouse/session/data/" ++ i) = Some bdata ->
    unpackb X bdata = UnpackRaises e ->
    _process_request X request w = Err e /\
    _process_request X request w <> Ok (Session_new (w_now w)).
Proof.
  intros X request w tok b i bdata e Hc Hu Hd Hg Hp.
  assert (E : _process_request X request w = Err e).
  { unfold _process_request. replace max_age with 43200 by reflexivity.
    change cookie_name with "session_id". unfold _redis_key.
    now rewrite Hc, Hu, Hd, Hg, Hp. }
  split; [exact E |]. rewrite E. discriminate.
Qed.

Lemma C3_corrupt_blob_raises_witness :
  cookie_get (cookies (request_with_cookie (Some "a") "https")) "session_id" = Some "a" /\
  unsign toyX_corrupt 100 43200 "a" = Some "a" /\
  utf8_decode toyX_corrupt "a" = Some "a" /\
  redis_get (mkWorld 100 1 [("warehouse/session/data/a", (corrupt_blob, 200))] [])
    ("warehouse/session/data/" ++ "a") = Some corrupt_blob /\
  unpackb toyX_corrupt corrupt_blob = UnpackRaises UnicodeDecodeError /\
  _process_request toyX_corrupt (request_with_cookie (Some "a") "https")
    (mkWorld 100 1 [("warehouse/session/data/a", (corrupt_blob, 200))] [])
  = Err UnicodeDecodeError.
Proof.
  do 5 (split; [reflexivity |]).
  exact (proj1 (C3_corrupt_blob_raises toyX_corrupt (request_with_cookie (Some "a") "https")
           (mkWorld 100 1 [("warehouse/session/data/a", (corrupt_blob, 200))] [])
           "a" "a" "a" corrupt_blob UnicodeDecodeError
           eq_refl eq_refl eq_refl eq_refl eq_refl)).
Defined.

(** C2 (divergence): a request whose cookie verifies, whose Redis entry is
    live and whose blob decodes to a mapping yields a loaded [Session] with
    [new = true], because [_process_request] calls [Session(data,
    session_id)] and leaves [new] at its default. *)
Theorem C2_loaded_session_is_new :
  _process_request toyX (request_with_cookie (Some "a") "https")
    (mkWorld 100 1 [("warehouse/session/data/a", ("blob", 200))] [])
  = Ok (mkSession [("counter", PInt 1)] (Some "a") false true 100 false).
Proof. reflexivity. Qed.

(** C8 (divergence): on a fresh session the first
    [flash("x", allow_duplicate=False)] raises [KeyError] from
    [self[queue_key]], before anything is queued. *)
Theorem C8_flash_no_duplicate_raises :
  forall (now : Z) (w : World),
    flash "x" "" false (Session_new now) w = (Err KeyError, Session_new now, w).
Proof. reflexivity. Qed.

(** C7: with a stored unscoped token [t] and an identifier [i], the scoped
    token is [hmac_sha512(hmac_sha512(t, scope).hexdigest(), i).hexdigest()]
    (each key and message UTF-8 encoded), and the session is unchanged. *)
Theorem C7_scoped_csrf_token :
  forall (X : Externals) (s : Session) (w : World) (t i scope : string),
    dict_get (data s) _csrf_token_key = Some (PStr t) ->
    _sid s = Some i ->
    get_scoped_csrf_token X scope s w =
    (Ok (hmac_sha512_hexdigest X
           (utf8_encode X (hmac_sha512_hexdigest X (utf8_encode X t)
                                                   (utf8_encode X scope)))
           (utf8_encode X i)), s, w).
Proof.
  intros X s w t i scope Ht Hi.
  unfold get_scoped_csrf_token, get_csrf_token, encode_utf8, get, sid.
  unfold_monad. cbn. rewrite Ht. cbn. rewrite Hi. reflexivity.
Qed.

Lemma C7_scoped_csrf_token_witness :
  dict_get (data (mkSession [("_csrf_token", PStr "T")] (Some "S") false false 0 false))
    _csrf_token_key = Some (PStr "T") /\
  _sid (mkSession [("_csrf_token", PStr "T")] (Some "S") false false 0 false) = Some "S" /\
  get_scoped_csrf_token toyX "scope"
    (mkSession [("_csrf_token", PStr "T")] (Some "S") false false 0 false) w0
  = (Ok "T|scope|S",
     mkSession [("_csrf_token", PStr "T")] (Some "S") false false 0 false, w0).
Proof.
  split; [reflexivity | split; [reflexivity |]].
  apply (C7_scoped_csrf_token toyX _ w0 "T" "S" "scope"); reflexivity.
Defined.

(** ** Lemmas on the response path *)

Lemma store_get_del_same (st : list (string * (string * Z))) (k : string) :
  store_get (store_del st k) k = None.
Proof.
  induction st as [| [k' e] st IH]; cbn; [reflexivity |].
  destruct (String.eqb k k') eqn:E; cbn; [exact IH |].
  rewrite E. exact IH.
Qed.

Lemma dict_get_set_same (d : dict) (k : string) (v : pyval) :
  dict_get (dict_set d k v) k = Some v.
Proof.
  induction d as [| [k' v'] d IH]; cbn.
  - now rewrite String.eqb_refl.
  - destruct (String.eqb k k') eqn:E; cbn; rewrite E; [reflexivity | exact IH].
Qed.

(** A session whose [_changed] flag is set is written to Redis under
    [_redis_key i] for 43200 seconds, and the response gets the signed
    identifier [i] as its last cookie instruction. *)
Lemma process_response_saves (X : Externals) (request : Request)
  (s : Session) (w : World) :
  _changed s = true ->
  let '(r, s', w') := _process_response X request s w in
  exists i acts pre,
    r = Ok (acts ++ [SetCookie "session_id" (sign X (w_now w) (utf8_encode X i))
                       43200 true (String.eqb (scheme request) "https")]) /\
    _sid s' = Some i /\
    w_log w' = pre ++ [RSetex ("warehouse/session/data/" ++ i) 43200
                         (packb X (PDict (data s)))] /\
    store_get (w_store w') ("warehouse/session/data/" ++ i)
    = Some (packb X (PDict (data s)), w_now w + 43200).
Proof.
  intros H.
  destruct s as [d sd ch nw cr inv]; cbn in H; subst ch.
  unfold _process_response, sid, del_sid, should_save, redis_setex,
    redis_delete, crypto_random_token.
  unfold_monad.
  destruct inv, sd; cbn; eexists; exists [];
    [exists (w_log w ++ [RDelete ("warehouse/session/data/" ++ s)])
    |exists (w_log w ++ [RDelete ("warehouse/session/data/" ++ random_token X (w_seed w))])
    |exists (w_log w) |exists (w_log w)];
    rewrite <- ?app_assoc; repeat split; cbn; rewrite ?String.eqb_refl; reflexivity.
Qed.

(** C9: when [should_save] holds, [_process_response] writes
    [msgpack.packb(session)] under ["warehouse/session/data/" ++ i] with a
    TTL of 43200 seconds and sets cookie [session_id] to the signed
    identifier [i] with max-age 43200, http-only, and secure exactly when the
    request scheme is ["https"]. *)
Theorem C9_save_writes_store_and_cookie :
  forall (X : Externals) (request : Request) (s : Session) (w : World),
    fst (fst (should_save s w)) = Ok true ->
    let '(r, s', w') := _process_response X request s w in
    exists i acts pre,
      r = Ok (acts ++ [SetCookie "session_id" (sign X (w_now w) (utf8_encode X i))
                         43200 true (String.eqb (scheme request) "https")]) /\
      _sid s' = Some i /\
      w_log w' = pre ++ [RSetex ("warehouse/session/data/" ++ i) 43200
                           (packb X (PDict (data s)))] /\
      store_get (w_store w') ("warehouse/session/data/" ++ i)
      = Some (packb X (PDict (data s)), w_now w + 43200).
Proof.
  intros X request s w H.
  rewrite should_save_eq in H. cbn in H. injection H as H.
  exact (process_response_saves X request s w H).
Qed.

Lemma C9_save_writes_store_and_cookie_witness :
  fst (fst (should_save (mkSession [("a", PInt 1)] None true true 100 false) w0))
  = Ok true /\
  _process_response toyX (mkRequest [] "https")
    (mkSession [("a", PInt 1)] None true true 100 false) w0
  = (Ok [SetCookie "session_id" "a" 43200 true true],
     mkSession [("a", PInt 1)] (Some "a") true true 100 false,
     mkWorld 100 1 [("warehouse/session/data/a", ("blob", 43300))]
       [RSetex "warehouse/session/data/a" 43200 "blob"]) /\
  (let '(r, s', w') := _process_response toyX (mkRequest [] "https")
                         (mkSession [("a", PInt 1)] None true true 100 false) w0 in
   exists i acts pre,
     r = Ok (acts ++ [SetCookie "session_id" (sign toyX 100 (utf8_encode toyX i))
                        43200 true (String.eqb "https" "https")]) /\
     _sid s' = Some i /\
     w_log w' = pre ++ [RSetex ("warehouse/session/data/" ++ i) 43200
                          (packb toyX (PDict [("a", PInt 1)]))] /\
     store_get (w_store w') ("warehouse/session/data/" ++ i)
     = Some (packb toyX (PDict [("a", PInt 1)]), 100 + 43200)).
Proof.
  split; [reflexivity | split; [reflexivity |]].
  apply (C9_save_writes_store_and_cookie toyX (mkRequest [] "https")
           (mkSession [("a", PInt 1)] None true true 100 false) w0).
  reflexivity.
Defined.

(** C6: for an invalidated session, [_process_response] deletes the Redis
    entry of the session's identifier [old] and resets [_sid]. If the session
    is not dirty, that is all: the only cookie instruction clears the cookie
    and no identifier is left. If it is dirty, no cookie is cleared; a fresh
    identifier is drawn, the data is written under it and the cookie is set,
    after the deletion, in the same response. *)
Theorem C6_invalidated_response :
  forall (X : Externals) (request : Request) (s : Session) (w : World),
    invalidated s = true ->
    let old := match _sid s with Some x => x | None => random_token X (w_seed w) end in
    let seed1 := match _sid s with Some _ => w_seed w | None => S (w_seed w) end in
    let fresh := random_token X seed1 in
    let '(r, s', w') := _process_response X request s w in
    if _changed s then
      r = Ok [SetCookie cookie_name (sign X (w_now w) (utf8_encode X fresh))
                max_age true (String.eqb (scheme request) "https")] /\
      _sid s' = Some fresh /\
      w_log w' = w_log w ++ [RDelete (_redis_key old);
                             RSetex (_redis_key fresh) max_age (packb X (PDict (data s)))]
    else
      r = Ok [DeleteCookie cookie_name] /\
      _sid s' = None /\
      w_log w' = w_log w ++ [RDelete (_redis_key old)] /\
      store_get (w_store w') (_redis_key old) = None.
Proof.
  intros X request s w Hinv.
  destruct s as [d sd ch nw cr inv]; cbn in Hinv; subst inv.
  unfold _process_response, sid, del_sid, should_save, redis_setex,
    redis_delete, crypto_random_token.
  unfold_monad.
  destruct sd, ch; cbn -[String.eqb store_del store_get _redis_key];
    rewrite <- ?app_assoc; repeat split;
    rewrite ?store_get_del_same; reflexivity.
Qed.

Lemma C6_invalidated_response_witness :
  invalidated (mkSession [] (Some "z") false true 100 true) = true /\
  (let '(r, s', w') :=
     _process_response toyX (mkRequest [] "http")
       (mkSession [] (Some "z") false true 100 true)
       (mkWorld 100 0 [("warehouse/session/data/z", ("blob", 500))] []) in
   r = Ok [DeleteCookie cookie_name] /\
   _sid s' = None /\
   w_log w' = [] ++ [RDelete (_redis_key "z")] /\
   store_get (w_store w') (_redis_key "z") = None).
Proof.
  split; [reflexivity |].
  exact (C6_invalidated_response toyX (mkRequest [] "http")
           (mkSession [] (Some "z") false true 100 true)
           (mkWorld 100 0 [("warehouse/session/data/z", ("blob", 500))] [])
           eq_refl).
Defined.

(** [get_csrf_token] on a session without a token draws one and stores it. *)
Lemma get_csrf_token_fresh (X : Externals) (s : Session) (w : World) :
  dict_get (data s) _csrf_token_key = None ->
  get_csrf_token X s w =
  (Ok (PStr (random_token X (w_seed w))),
   set_data (dict_set (data s) _csrf_token_key (PStr (random_token X (w_seed w))))
            (set_changed true s),
   mkWorld (w_now w) (S (w_seed w)) (w_store w) (w_log w)).
Proof.
  intros H.
  unfold get_csrf_token, new_csrf_token, get, __setitem__, __getitem__,
    _changed_method, changed, crypto_random_token.
  unfold_monad. cbn -[dict_get dict_set]. rewrite H.
  cbn -[dict_get dict_set]. now rewrite dict_get_set_same.
Qed.

(** C10: on a session without a [_csrf_token] entry, [get_csrf_token]
    stores a freshly drawn token under that key and sets [_changed], so
    [should_save] becomes [true] and the next [_process_response] writes
    Redis and sets the cookie; [get_scoped_csrf_token] sets [_changed] too. *)
Theorem C10_csrf_read_marks_dirty :
  forall (X : Externals) (s : Session) (w : World),
    dict_get (data s) _csrf_token_key = None ->
    (let '(r, s', w') := get_csrf_token X s w in
     r = Ok (PStr (random_token X (w_seed w))) /\
     dict_get (data s') _csrf_token_key = Some (PStr (random_token X (w_seed w))) /\
     _changed s' = true /\
     fst (fst (should_save s' w')) = Ok true /\
     (forall request,
        let '(r2, s2, w2) := _process_response X request s' w' in
        exists i acts pre,
          r2 = Ok (acts ++ [SetCookie "session_id" (sign X (w_now w) (utf8_encode X i))
                              43200 true (String.eqb (scheme request) "https")]) /\
          w_log w2 = pre ++ [RSetex ("warehouse/session/data/" ++ i) 43200
                               (packb X (PDict (data s')))])) /\
    (forall scope, _changed (snd (fst (get_scoped_csrf_token X scope s w))) = true).
Proof.
  intros X s w H.
  split.
  - rewrite (get_csrf_token_fresh X s w H).
    cbv beta iota.
    split; [reflexivity |].
    split; [apply dict_get_set_same |].
    split; [reflexivity |].
    split; [reflexivity |].
    intros request.
    match goal with
    | |- context [_process_response X request ?s1 ?w1] =>
        pose proof (process_response_saves X request s1 w1 eq_refl) as Hs;
        destruct (_process_response X request s1 w1) as [[r2 s2] w2]
    end.
    destruct Hs as (i & acts & pre & Hr & _ & Hl & _).
    exists i, acts, pre. split; assumption.
  - intros scope.
    unfold get_scoped_csrf_token, get_csrf_token, new_csrf_token, get,
      __setitem__, __getitem__, _changed_method, changed, crypto_random_token,
      encode_utf8, sid.
    unfold_monad. cbn. rewrite H. cbn.
    rewrite dict_get_set_same. cbn.
    destruct (_sid s); reflexivity.
Qed.

Lemma C10_csrf_read_marks_dirty_witness :
  dict_get (data (Session_new 100)) _csrf_token_key = None /\
  (let '(r, s', w') := get_csrf_token toyX (Session_new 100) w0 in
   r = Ok (PStr "a") /\
   dict_get (data s') _csrf_token_key = Some (PStr "a") /\
   _changed s' = true /\
   fst (fst (should_save s' w')) = Ok true /\
   (forall request,
      let '(r2, s2, w2) := _process_response toyX request s' w' in
      exists i acts pre,
        r2 = Ok (acts ++ [SetCookie "session_id" (sign toyX 100 (utf8_encode toyX i))
                            43200 true (String.eqb (scheme request) "https")]) /\
        w_log w2 = pre ++ [RSetex ("warehouse/session/data/" ++ i) 43200
                             (packb toyX (PDict (data s')))])).
Proof.
  split; [reflexivity |].
  exact (proj1 (C10_csrf_read_marks_dirty toyX (Session_new 100) w0 eq_refl)).
Defined.

(** C1: round trip. Given a signer that accepts its own tokens up to
    [max_age] seconds later, a UTF-8 codec, and a serializer that round-trips
    the [supported] values: a new session that gets the entries of a mapping
    [m] (distinct keys, a supported value), whose response is processed, and
    whose cookie is presented again within the 43200-second lifetime, loads
    with data equal to [m]. *)
Theorem C1_roundtrip :
  forall (X : Externals) (supported : pyval -> Prop),
    (forall t now b, t <= now <= t + 43200 -> unsign X now 43200 (sign X t b) = Some b) ->
    (forall x, utf8_decode X (utf8_encode X x) = Some x) ->
    (forall v, supported v -> unpackb X (packb X v) = Unpacked v) ->
    forall (m : dict) (r1 : Request) (w : World) (now' : Z),
      NoDup (map fst m) ->
      supported (PDict m) ->
      w_now w <= now' < w_now w + 43200 ->
      roundtrip X m r1 w now' = Ok m.
Proof.
  intros X supported Hsign Hutf Hpack m r1 w now' Hnd Hsup Hnow.
  unfold roundtrip. unfold bind at 1.
  rewrite set_all_eq.
  destruct m as [| kv m0] eqn:Em.
  - reflexivity.
  - rewrite <- Em in *.
    unfold _process_response, sid, should_save, redis_setex, crypto_random_token.
    unfold_monad. cbn -[String.eqb _redis_key store_del store_get packb sign].
    rewrite String.eqb_refl, ?(dict_update_nil m Hnd).
    unfold _process_request, request_with_cookie, redis_get.
    cbn -[String.eqb _redis_key store_del store_get packb sign unsign].
    rewrite String.eqb_refl.
    replace max_age with 43200 by reflexivity.
    rewrite Hsign by lia. rewrite Hutf.
    cbn -[_redis_key store_del packb].
    rewrite String.eqb_refl.
    replace (now' <? w_now w + 43200) with true by (symmetry; apply Z.ltb_lt; lia).
    rewrite (Hpack _ Hsup). subst m.
    cbn -[dict_update]. rewrite ?(dict_update_nil _ Hnd). reflexivity.
Qed.

Lemma C1_roundtrip_witness :
  (forall t now b, t <= now <= t + 43200 ->
     unsign toyX now 43200 (sign toyX t b) = Some b) /\
  (forall x, utf8_decode toyX (utf8_encode toyX x) = Some x) /\
  (forall v, v = PDict [("counter", PInt 1)] -> unpackb toyX (packb toyX v) = Unpacked v) /\
  (NoDup (map fst [("counter", PInt 1)])) /\
  (PDict [("counter", PInt 1)] = PDict [("counter", PInt 1)]) /\
  (100 <= 200 < 100 + 43200) /\
  (roundtrip toyX [("counter", PInt 1)] (mkRequest [] "https") w0 200
   = Ok [("counter", PInt 1)]).
Proof.
  assert (Hs : forall t now b, t <= now <= t + 43200 ->
                 unsign toyX now 43200 (sign toyX t b) = Some b)
    by reflexivity.
  assert (Hu : forall x, utf8_decode toyX (utf8_encode toyX x) = Some x)
    by reflexivity.
  assert (Hp : forall v, v = PDict [("counter", PInt 1)] ->
                 unpackb toyX (packb toyX v) = Unpacked v)
    by (intros v ->; reflexivity).
  assert (Hn : NoDup (map fst [("counter", PInt 1)]))
    by (constructor; [intros [] | constructor]).
  split; [exact Hs |]. split; [exact Hu |]. split; [exact Hp |].
  split; [exact Hn |]. split; [reflexivity |]. split; [lia |].
  exact (C1_roundtrip toyX (fun v => v = PDict [("counter", PInt 1)]) Hs Hu Hp
           [("counter", PInt 1)] (mkRequest [] "https") w0 200 Hn eq_refl
           ltac:(cbn; lia)).
Defined.

(** ** Further properties of the module *)

(** *** The request layer *)

Lemma with_session_keeps_stash {A} (m : M A) (r : ReqState) :
  rq__session (snd (with_session m r)) = rq__session r.
Proof.
  unfold with_session. destruct (rq_session r); [| reflexivity].
  destruct (m (rq_obj r) (rq_world r)) as [[[a | e] s'] w']; reflexivity.
Qed.


(** Inside [session_tween], a [uses_session] view runs its session methods on
    the real session exactly as it would without the tween: the result, the
    session's final state and the world are those of running the methods
    directly, so its changes are seen by the response processing. *)
Theorem tween_uses_session_runs_on_real_session :
  forall {A} (m : M A) (r : ReqState),
    rq_session r = RealRef ->
    let '(o, r') := session_tween (uses_session (with_session m)) r in
    let '(o0, s0, w0') := m (rq_obj r) (rq_world r) in
    o = match o0 with Ok a => ROk a | Err e => RErr (PyExn e) end /\
    rq_obj r' = s0 /\ rq_world r' = w0' /\ rq_session r' = RealRef /\
    rq_vary r' = rq_vary r ++ ["Cookie"].
Proof.
  intros A m r Hr.
  destruct r as [obj w sess stash vary]; cbn in Hr; subst sess.
  unfold session_tween, uses_session, add_vary_cookie, with_session; cbn.
  destruct (m obj w) as [[[a | e] s0] w1]; repeat split.
Qed.

Lemma tween_uses_session_runs_on_real_session_witness :
  rq_session (mkReqState (Session_new 100) w0 RealRef None []) = RealRef /\
  (let '(o, r') := session_tween (uses_session (with_session (__setitem__ "k" (PInt 1))))
                     (mkReqState (Session_new 100) w0 RealRef None []) in
   let '(o0, s0, w0') := __setitem__ "k" (PInt 1) (Session_new 100) w0 in
   o = match o0 with Ok a => ROk a | Err e => RErr (PyExn e) end /\
   rq_obj r' = s0 /\ rq_world r' = w0' /\ rq_session r' = RealRef /\
   rq_vary r' = [] ++ ["Cookie"]).
Proof.
  split; [reflexivity |].
  exact (tween_uses_session_runs_on_real_session (__setitem__ "k" (PInt 1))
           (mkReqState (Session_new 100) w0 RealRef None []) eq_refl).
Defined.

(** [session_tween] restores [request.session] in its [finally] clause,
    also when the handler raises, provided the handler leaves
    [request._session] alone; the handler's outcome is passed through. *)
Theorem tween_restores_session :
  forall {A} (handler : RM A) (r : ReqState),
    (forall r1, rq__session (snd (handler r1)) = rq__session r1) ->
    let '(o, r') := session_tween handler r in
    rq_session r' = rq_session r /\
    o = fst (handler (set_rq_session InvalidRef (set_rq__session (Some (rq_session r)) r))).
Proof.
  intros A handler r H.
  unfold session_tween.
  pose proof (H (set_rq_session InvalidRef (set_rq__session (Some (rq_session r)) r))) as H1.
  destruct (handler _) as [o r2]. cbn in H1 |- *. rewrite H1. split; reflexivity.
Qed.

Lemma tween_restores_session_witness :
  (forall r1, rq__session (snd (uses_session (with_session (__delitem__ "k")) r1))
              = rq__session r1) /\
  (let '(o, r') := session_tween (uses_session (with_session (__delitem__ "k")))
                     (mkReqState (Session_new 100) w0 RealRef None []) in
   rq_session r' = RealRef /\
   o = fst (uses_session (with_session (__delitem__ "k"))
              (set_rq_session InvalidRef (set_rq__session (Some RealRef)
                 (mkReqState (Session_new 100) w0 RealRef None []))))).
Proof.
  assert (H : forall r1, rq__session (snd (uses_session (with_session (__delitem__ "k")) r1))
                         = rq__session r1).
  { intros r1. unfold uses_session, add_vary_cookie; cbn.
    destruct (rq__session r1) as [x |]; [| reflexivity].
    exact (with_session_keeps_stash (__delitem__ "k") _). }
  split; [exact H |].
  exact (tween_restores_session (uses_session (with_session (__delitem__ "k")))
           (mkReqState (Session_new 100) w0 RealRef None []) H).
Defined.

Example tween_restores_session_example :
  fst (session_tween (uses_session (with_session (__delitem__ "k")))
         (mkReqState (Session_new 100) w0 RealRef None []))
  = RErr (PyExn KeyError).
Proof. reflexivity. Qed.

(** *** Dictionary operations of a [Session] *)

Lemma dict_get_none_iff (d : dict) (k : string) :
  dict_get d k = None <-> ~ In k (map fst d).
Proof.
  induction d as [| [k' v'] d IH]; cbn; [tauto |].
  destruct (String.eqb k k') eqn:E.
  - apply String.eqb_eq in E. subst. split; [discriminate | tauto].
  - apply String.eqb_neq in E. rewrite IH. split.
    + intros H [H' | H']; [congruence | tauto].
    + tauto.
Qed.

Lemma dict_get_set_other (d : dict) (k k' : string) (v : pyval) :
  k <> k' -> dict_get (dict_set d k v) k' = dict_get d k'.
Proof.
  intros Hne. induction d as [| [k0 v0] d IH]; cbn.
  - destruct (String.eqb k' k) eqn:E; [| reflexivity].
    apply String.eqb_eq in E. congruence.
  - destruct (String.eqb k k0) eqn:E; cbn.
    + apply String.eqb_eq in E. subst k0.
      destruct (String.eqb k' k) eqn:E'; [apply String.eqb_eq in E'; congruence |].
      reflexivity.
    + destruct (String.eqb k' k0); [reflexivity | exact IH].
Qed.

Lemma dict_set_keys (d : dict) (k : string) (v : pyval) :
  map fst (dict_set d k v) =
  if existsb (String.eqb k) (map fst d) then map fst d else map fst d ++ [k].
Proof.
  induction d as [| [k0 v0] d IH]; cbn; [reflexivity |].
  destruct (String.eqb k k0) eqn:E; cbn; [reflexivity |].
  rewrite IH. destruct (existsb _ _); reflexivity.
Qed.

Lemma dict_set_nodup (d : dict) (k : string) (v : pyval) :
  NoDup (map fst d) -> NoDup (map fst (dict_set d k v)).
Proof.
  intros H. rewrite dict_set_keys.
  destruct (existsb (String.eqb k) (map fst d)) eqn:E; [exact H |].
  apply NoDup_app; [exact H | constructor; [intros [] | constructor] |].
  intros x Hx [Hk | []]. subst x.
  assert (existsb (String.eqb k) (map fst d) = true) as E'.
  { apply existsb_exists. exists k. split; [exact Hx | apply String.eqb_refl]. }
  congruence.
Qed.

Lemma dict_remove_keys (d d' : dict) (k : string) :
  dict_remove d k = Some d' ->
  exists a b, map fst d = a ++ k :: b /\ map fst d' = a ++ b.
Proof.
  revert d'. induction d as [| [k0 v0] d IH]; cbn; intros d' H; [discriminate |].
  destruct (String.eqb k k0) eqn:E.
  - apply String.eqb_eq in E. subst k0. injection H as H.
    exists [], (map fst d). subst d'. split; reflexivity.
  - destruct (dict_remove d k) as [r |] eqn:Er; cbn in H; [| discriminate].
    injection H as <-. destruct (IH r eq_refl) as (a & b & H1 & H2).
    exists (k0 :: a), b. cbn. rewrite H1, H2. split; reflexivity.
Qed.

Lemma dict_remove_nodup (d d' : dict) (k : string) :
  NoDup (map fst d) -> dict_remove d k = Some d' -> NoDup (map fst d').
Proof.
  intros Hnd Hr. destruct (dict_remove_keys d d' k Hr) as (a & b & H1 & H2).
  rewrite H2. rewrite H1 in Hnd. exact (NoDup_remove_1 a b k Hnd).
Qed.

(** After removal from a dictionary with distinct keys the key is gone. *)
Lemma dict_remove_get (d d' : dict) (k : string) :
  NoDup (map fst d) -> dict_remove d k = Some d' -> dict_get d' k = None.
Proof.
  intros Hnd Hr. destruct (dict_remove_keys d d' k Hr) as (a & b & H1 & H2).
  apply dict_get_none_iff. rewrite H2. rewrite H1 in Hnd.
  exact (NoDup_remove_2 a b k Hnd).
Qed.

Lemma dict_update_nodup (d other : dict) :
  NoDup (map fst d) -> NoDup (map fst (dict_update d other)).
Proof.
  revert d. induction other as [| [k v] other IH]; intros d H; cbn; [exact H |].
  apply IH. apply dict_set_nodup. exact H.
Qed.

Lemma rev_cons_keys (d : dict) (kv : string * pyval) (rest : dict) :
  rev d = kv :: rest -> map fst d = map fst (rev rest) ++ [fst kv].
Proof.
  intros H. rewrite <- (rev_involutive d), H. cbn.
  rewrite map_app. reflexivity.
Qed.

(** The seven mutators keep the keys of the session's dictionary distinct,
    whatever their arguments and whether or not they raise. *)
Theorem mutators_keep_keys_distinct :
  forall (op : mutation) (s : Session) (w : World),
    NoDup (map fst (data s)) ->
    NoDup (map fst (data (snd (fst (run_mutation op s w))))).
Proof.
  intros op s w H.
  destruct op; unfold_methods; unfold_monad; cbn.
  - apply dict_set_nodup. exact H.
  - destruct (dict_remove (data s) k) eqn:E; cbn; [| exact H].
    exact (dict_remove_nodup _ _ _ H E).
  - constructor.
  - destruct (dict_get (data s) k); [| destruct default; exact H].
    destruct (dict_remove (data s) k) eqn:E; cbn;
      [exact (dict_remove_nodup _ _ _ H E) | destruct default; exact H].
  - destruct (rev (data s)) as [| kv rest] eqn:E; cbn; [exact H |].
    rewrite (rev_cons_keys _ _ _ E) in H. rewrite map_rev.
    apply NoDup_app_remove_r in H. rewrite map_rev in H. exact H.
  - destruct (dict_get (data s) k); cbn; [exact H |].
    apply dict_set_nodup. exact H.
  - apply dict_update_nodup. exact H.
Qed.

Lemma mutators_keep_keys_distinct_witness :
  NoDup (map fst (data (mkSession [("a", PInt 1); ("b", PInt 2)] None false true 0 false))) /\
  NoDup (map fst (data (snd (fst (run_mutation (MUpdate [("b", PInt 3); ("c", PNone)])
          (mkSession [("a", PInt 1); ("b", PInt 2)] None false true 0 false) w0))))).
Proof.
  assert (H : NoDup (map fst (data (mkSession [("a", PInt 1); ("b", PInt 2)] None false true 0 false)))).
  { cbn. constructor; [intros [H | []]; discriminate | constructor; [intros [] | constructor]]. }
  split; [exact H |].
  exact (mutators_keep_keys_distinct (MUpdate [("b", PInt 3); ("c", PNone)]) _ w0 H).
Defined.

Lemma dict_set_set (d : dict) (k : string) (a b : pyval) :
  dict_set (dict_set d k a) k b = dict_set d k b.
Proof.
  induction d as [| [k0 v0] d IH]; cbn.
  - now rewrite String.eqb_refl.
  - destruct (String.eqb k k0) eqn:E; cbn; rewrite E; [reflexivity | now rewrite IH].
Qed.

Lemma dict_remove_set_absent (d : dict) (k : string) (v : pyval) :
  dict_get d k = None -> dict_remove (dict_set d k v) k = Some d.
Proof.
  induction d as [| [k0 v0] d IH]; cbn; intros H.
  - now rewrite String.eqb_refl.
  - destruct (String.eqb k k0) eqn:E; [discriminate |]. cbn. rewrite E, (IH H).
    reflexivity.
Qed.

Lemma dict_get_remove_some (d : dict) (k : string) (v : pyval) :
  dict_get d k = Some v -> exists d', dict_remove d k = Some d'.
Proof.
  induction d as [| [k0 v0] d IH]; cbn; intros H; [discriminate |].
  destruct (String.eqb k k0); [eauto |].
  destruct (IH H) as [d' Hd]. rewrite Hd. cbn. eauto.
Qed.

(** [session[k] = v] followed by [session[k']]: [v] for [k' = k], the old
    lookup (value or [KeyError]) for every other key. *)
Theorem setitem_getitem :
  forall (k k' : string) (v : pyval) (s : Session) (w : World),
    let '(_, s1, w1) := __setitem__ k v s w in
    fst (fst (__getitem__ k' s1 w1)) =
    if String.eqb k' k then Ok v else fst (fst (__getitem__ k' s w)).
Proof.
  intros k k' v s w. unfold __setitem__, __getitem__, _changed_method, changed.
  unfold_monad. cbn -[dict_get dict_set].
  destruct (String.eqb k' k) eqn:E.
  - apply String.eqb_eq in E. subst k'. now rewrite dict_get_set_same.
  - apply String.eqb_neq in E. rewrite dict_get_set_other by congruence.
    destruct (dict_get (data s) k'); reflexivity.
Qed.

(** [popitem] returns the most recently inserted pair: setting a new key
    and calling [popitem] gives back that pair and the original data (the
    session stays marked changed). *)
Theorem setitem_popitem :
  forall (k : string) (v : pyval) (s : Session) (w : World),
    dict_get (data s) k = None ->
    (__setitem__ k v ;;; popitem) s w = (Ok (k, v), set_changed true s, w).
Proof.
  intros k v s w H.
  unfold __setitem__, popitem, _changed_method, changed.
  unfold_monad. cbn -[dict_set rev].
  rewrite (dict_set_absent _ _ _ H), rev_app_distr. cbn.
  rewrite rev_involutive. reflexivity.
Qed.

Lemma setitem_popitem_witness :
  dict_get (data (mkSession [("a", PInt 1)] None false false 0 false)) "k" = None /\
  (__setitem__ "k" (PInt 2) ;;; popitem) (mkSession [("a", PInt 1)] None false false 0 false) w0
  = (Ok ("k", PInt 2), set_changed true (mkSession [("a", PInt 1)] None false false 0 false), w0).
Proof.
  split; [reflexivity |].
  exact (setitem_popitem "k" (PInt 2) (mkSession [("a", PInt 1)] None false false 0 false)
           w0 eq_refl).
Defined.

(** [pop(k[, default])] on a session with distinct keys: a present key is
    returned and removed; for an absent key the default is returned, or
    [KeyError] raised without one, and the data is unchanged. The session is
    marked changed in every case. *)
Theorem pop_semantics :
  forall (k : string) (default : option pyval) (s : Session) (w : World),
    NoDup (map fst (data s)) ->
    let '(o, s', w') := pop k default s w in
    w' = w /\ _changed s' = true /\
    match dict_get (data s) k with
    | Some v => o = Ok v /\ dict_get (data s') k = None
    | None =>
        data s' = data s /\
        o = match default with Some dv => Ok dv | None => Err KeyError end
    end.
Proof.
  intros k default s w H.
  unfold pop, _changed_method, changed. unfold_monad. cbn -[dict_get dict_remove].
  destruct (dict_get (data s) k) as [v |] eqn:Eg.
  - destruct (dict_remove (data s) k) as [d |] eqn:Er.
    + repeat split. exact (dict_remove_get _ _ _ H Er).
    + exfalso. destruct (dict_get_remove_some _ _ _ Eg) as [d Hd]. congruence.
  - destruct default; repeat split.
Qed.

Lemma pop_semantics_witness :
  NoDup (map fst (data (mkSession [("a", PInt 1)] None false false 0 false))) /\
  (let '(o, s', w') := pop "a" None (mkSession [("a", PInt 1)] None false false 0 false) w0 in
   w' = w0 /\ _changed s' = true /\
   match dict_get (data (mkSession [("a", PInt 1)] None false false 0 false)) "a" with
   | Some v => o = Ok v /\ dict_get (data s') "a" = None
   | None =>
       data s' = data (mkSession [("a", PInt 1)] None false false 0 false) /\
       o = match @None pyval with Some dv => Ok dv | None => Err KeyError end
   end).
Proof.
  assert (H : NoDup (map fst (data (mkSession [("a", PInt 1)] None false false 0 false))))
    by (constructor; [intros [] | constructor]).
  split; [exact H |].
  exact (pop_semantics "a" None (mkSession [("a", PInt 1)] None false false 0 false) w0 H).
Defined.

(** *** Flash queues *)

Lemma string_app_inj_l (p a b : string) : (p ++ a = p ++ b)%string -> a = b.
Proof.
  induction p as [| c p IH]; cbn; [tauto |]. intros H. injection H. exact IH.
Qed.

(** Distinct queue names give distinct keys in the session: the default
    queue ["_flash_messages"] and ["_flash_messages." ++ queue] otherwise. *)
Theorem flash_queue_keys_distinct :
  forall (q1 q2 : string),
    q1 <> q2 -> _get_flash_queue_key q1 <> _get_flash_queue_key q2.
Proof.
  intros q1 q2 Hne Heq. apply Hne.
  destruct q1 as [| c1 q1], q2 as [| c2 q2]; cbn [_get_flash_queue_key] in Heq.
  - reflexivity.
  - apply (f_equal String.length) in Heq. cbn in Heq. discriminate.
  - apply (f_equal String.length) in Heq. cbn in Heq. discriminate.
  - unfold _flash_key in Heq. apply string_app_inj_l, string_app_inj_l in Heq.
    exact Heq.
Qed.

Lemma flash_queue_keys_distinct_witness :
  "" <> "errors" /\ _get_flash_queue_key "" <> _get_flash_queue_key "errors".
Proof.
  assert (H : "" <> "errors") by discriminate.
  split; [exact H | exact (flash_queue_keys_distinct "" "errors" H)].
Defined.

(** [flash(msg, queue)] (duplicates allowed) appends [msg] to the queue's
    list, creating the list when the queue is absent; a queue key holding a
    non-list raises [AttributeError]. The session is marked changed and no
    other key, so no other queue, is touched. *)
Theorem flash_appends :
  forall (msg q : string) (s : Session) (w : World),
    let qk := _get_flash_queue_key q in
    let '(o, s', w') := flash msg q true s w in
    w' = w /\ _changed s' = true /\
    (forall k', k' <> qk -> dict_get (data s') k' = dict_get (data s) k') /\
    match dict_get (data s) qk with
    | None => o = Ok tt /\ dict_get (data s') qk = Some (PList [PStr msg])
    | Some (PList l) => o = Ok tt /\ dict_get (data s') qk = Some (PList (l ++ [PStr msg]))
    | Some _ => o = Err AttributeError
    end.
Proof.
  intros msg q s w qk.
  unfold flash, flash_append, setdefault, _changed_method, changed. fold qk.
  unfold_monad. cbn -[dict_get dict_set].
  destruct (dict_get (data s) qk) as [v |] eqn:E.
  - destruct v; cbn -[dict_get dict_set]; repeat split; intros;
      rewrite ?dict_get_set_same, ?dict_get_set_other by congruence; reflexivity.
  - cbn -[dict_get dict_set]. repeat split; intros;
      rewrite ?dict_get_set_same, ?dict_get_set_other by congruence; reflexivity.
Qed.

(** With [allow_duplicate=False], a message already in an existing queue
    list leaves the session and the world exactly as they were; the session
    is not even marked changed. *)
Theorem flash_duplicate_skipped :
  forall (msg q : string) (l : list pyval) (s : Session) (w : World),
    dict_get (data s) (_get_flash_queue_key q) = Some (PList l) ->
    In (PStr msg) l ->
    flash msg q false s w = (Ok tt, s, w).
Proof.
  intros msg q l s w Hq Hin.
  unfold flash, __getitem__, lift_result. unfold_monad. cbn -[dict_get].
  rewrite Hq. cbn.
  assert (Hx : existsb (fun x => match x with PStr y => String.eqb y msg | _ => false end) l
               = true).
  { apply existsb_exists. exists (PStr msg). split; [exact Hin | apply String.eqb_refl]. }
  rewrite Hx. reflexivity.
Qed.

Lemma flash_duplicate_skipped_witness :
  dict_get (data (mkSession [("_flash_messages", PList [PStr "x"])] None false false 0 false))
    (_get_flash_queue_key "") = Some (PList [PStr "x"]) /\
  In (PStr "x") [PStr "x"] /\
  flash "x" "" false (mkSession [("_flash_messages", PList [PStr "x"])] None false false 0 false) w0
  = (Ok tt, mkSession [("_flash_messages", PList [PStr "x"])] None false false 0 false, w0).
Proof.
  split; [reflexivity |]. split; [left; reflexivity |].
  exact (flash_duplicate_skipped "x" "" [PStr "x"]
           (mkSession [("_flash_messages", PList [PStr "x"])] None false false 0 false) w0
           eq_refl (or_introl eq_refl)).
Defined.

(** On a session without the queue, [flash(msg, queue)] then
    [peek_flash(queue)] then [pop_flash(queue)] returns [[msg]] from both
    reads and leaves the data as it was before the [flash] (marked changed). *)
Theorem flash_peek_pop :
  forall (msg q : string) (s : Session) (w : World),
    dict_get (data s) (_get_flash_queue_key q) = None ->
    (flash msg q true ;;; p <- peek_flash q ;; m <- pop_flash q ;; ret (p, m)) s w
    = (Ok (PList [PStr msg], PList [PStr msg]), set_changed true s, w).
Proof.
  intros msg q s w H.
  unfold flash, flash_append, peek_flash, pop_flash, setdefault, get, pop,
    _changed_method, changed.
  unfold_monad. cbn -[dict_get dict_set dict_remove].
  rewrite H. cbn -[dict_get dict_set dict_remove].
  rewrite dict_set_set, dict_get_set_same. cbn -[dict_get dict_set dict_remove].
  rewrite dict_get_set_same. cbn -[dict_get dict_set dict_remove].
  rewrite dict_get_set_same, (dict_remove_set_absent _ _ _ H).
  destruct s; reflexivity.
Qed.

Lemma flash_peek_pop_witness :
  dict_get (data (Session_new 100)) (_get_flash_queue_key "") = None /\
  (flash "hi" "" true ;;; p <- peek_flash "" ;; m <- pop_flash "" ;; ret (p, m))
    (Session_new 100) w0
  = (Ok (PList [PStr "hi"], PList [PStr "hi"]), set_changed true (Session_new 100), w0).
Proof.
  split; [reflexivity |].
  exact (flash_peek_pop "hi" "" (Session_new 100) w0 eq_refl).
Defined.

(** *** CSRF token helpers *)

Lemma new_csrf_token_eq (X : Externals) (s : Session) (w : World) :
  new_csrf_token X s w =
  (Ok (PStr (random_token X (w_seed w))),
   set_data (dict_set (data s) _csrf_token_key (PStr (random_token X (w_seed w))))
            (set_changed true s),
   mkWorld (w_now w) (S (w_seed w)) (w_store w) (w_log w)).
Proof.
  unfold new_csrf_token, __setitem__, __getitem__, _changed_method, changed,
    crypto_random_token.
  unfold_monad. cbn -[dict_get dict_set]. now rewrite dict_get_set_same.
Qed.

(** [get_csrf_token] is memoised: whatever the session held, a second call
    returns the same token and changes nothing, and afterwards
    [has_csrf_token] is [True]. *)
Theorem get_csrf_token_memoised :
  forall (X : Externals) (s : Session) (w : World),
    let '(o1, s1, w1) := get_csrf_token X s w in
    get_csrf_token X s1 w1 = (o1, s1, w1) /\
    has_csrf_token s1 w1 = (Ok true, s1, w1).
Proof.
  intros X s w.
  assert (Hfresh : forall s0 w0',
             let '(o1, s1, w1) := new_csrf_token X s0 w0' in
             get_csrf_token X s1 w1 = (o1, s1, w1) /\
             has_csrf_token s1 w1 = (Ok true, s1, w1)).
  { intros s0 w0'. rewrite new_csrf_token_eq.
    unfold get_csrf_token, has_csrf_token, get. unfold_monad.
    cbn -[dict_get dict_set]. rewrite dict_get_set_same. split; reflexivity. }
  unfold get_csrf_token at 1, get. unfold_monad. cbn -[dict_get new_csrf_token].
  destruct (dict_get (data s) _csrf_token_key) as [v |] eqn:E.
  - destruct v; try exact (Hfresh s w);
      (unfold get_csrf_token, has_csrf_token, get; unfold_monad;
       cbn -[dict_get]; rewrite E; split; reflexivity).
  - exact (Hfresh s w).
Qed.

(** *** Loading and saving in [SessionFactory] *)

(** A cookie that verifies and decodes to an identifier with a live Redis
    entry that msgpack decodes to a map loads a session holding that map
    (later duplicate keys win), the identifier, [_changed = False],
    [invalidated = False], [new = True] and [created] = now. *)
Theorem process_request_loads :
  forall (X : Externals) (request : Request) (w : World) (tok b i bdata : string)
         (d : list (string * pyval)),
    cookie_get (cookies request) "session_id" = Some tok ->
    unsign X (w_now w) 43200 tok = Some b ->
    utf8_decode X b = Some i ->
    redis_get w ("warehouse/session/data/" ++ i) = Some bdata ->
    unpackb X bdata = Unpacked (PDict d) ->
    _process_request X request w =
    Ok (mkSession (dict_update [] d) (Some i) false true (w_now w) false).
Proof.
  intros X request w tok b i bdata d Hc Hu Hd Hg Hp.
  unfold _process_request. replace max_age with 43200 by reflexivity.
  change cookie_name with "session_id". unfold _redis_key.
  now rewrite Hc, Hu, Hd, Hg, Hp.
Qed.

Lemma process_request_loads_witness :
  cookie_get (cookies (request_with_cookie (Some "a") "https")) "session_id" = Some "a" /\
  unsign toyX 100 43200 "a" = Some "a" /\
  utf8_decode toyX "a" = Some "a" /\
  redis_get (mkWorld 100 1 [("warehouse/session/data/a", ("blob", 200))] [])
    ("warehouse/session/data/" ++ "a") = Some "blob" /\
  unpackb toyX "blob" = Unpacked (PDict [("counter", PInt 1)]) /\
  _process_request toyX (request_with_cookie (Some "a") "https")
    (mkWorld 100 1 [("warehouse/session/data/a", ("blob", 200))] [])
  = Ok (mkSession (dict_update [] [("counter", PInt 1)]) (Some "a") false true 100 false).
Proof.
  do 5 (split; [reflexivity |]).
  exact (process_request_loads toyX (request_with_cookie (Some "a") "https")
           (mkWorld 100 1 [("warehouse/session/data/a", ("blob", 200))] [])
           "a" "a" "a" "blob" [("counter", PInt 1)]
           eq_refl eq_refl eq_refl eq_refl eq_refl).
Defined.

(** A verified cookie whose payload is not valid UTF-8 is not caught:
    [_process_request] raises [UnicodeDecodeError]. *)
Theorem process_request_bad_utf8_raises :
  forall (X : Externals) (request : Request) (w : World) (tok b : string),
    cookie_get (cookies request) "session_id" = Some tok ->
    unsign X (w_now w) 43200 tok = Some b ->
    utf8_decode X b = None ->
    _process_request X request w = Err UnicodeDecodeError.
Proof.
  intros X request w tok b Hc Hu Hd.
  unfold _process_request. replace max_age with 43200 by reflexivity.
  change cookie_name with "session_id". now rewrite Hc, Hu, Hd.
Qed.

Lemma process_request_bad_utf8_raises_witness :
  cookie_get (cookies (request_with_cookie (Some "a") "https")) "session_id" = Some "a" /\
  unsign toyX_latin1 100 43200 "a" = Some "a" /\
  utf8_decode toyX_latin1 "a" = None /\
  _process_request toyX_latin1 (request_with_cookie (Some "a") "https") w0
  = Err UnicodeDecodeError.
Proof.
  do 3 (split; [reflexivity |]).
  exact (process_request_bad_utf8_raises toyX_latin1 (request_with_cookie (Some "a") "https")
           w0 "a" "a" eq_refl eq_refl eq_refl).
Defined.

(** A live Redis entry that msgpack decodes to an integer or a boolean is
    not caught either: [Session(data, session_id)] raises [TypeError]. *)
Theorem process_request_scalar_blob_raises :
  forall (X : Externals) (request : Request) (w : World) (tok b i bdata : string)
         (v : pyval),
    cookie_get (cookies request) "session_id" = Some tok ->
    unsign X (w_now w) 43200 tok = Some b ->
    utf8_decode X b = Some i ->
    redis_get w ("warehouse/session/data/" ++ i) = Some bdata ->
    unpackb X bdata = Unpacked v ->
    match v with PInt _ | PBool _ => True | _ => False end ->
    _process_request X request w = Err TypeError.
Proof.
  intros X request w tok b i bdata v Hc Hu Hd Hg Hp Hv.
  unfold _process_request. replace max_age with 43200 by reflexivity.
  change cookie_name with "session_id". unfold _redis_key.
  rewrite Hc, Hu, Hd, Hg, Hp.
  destruct v; try contradiction; reflexivity.
Qed.

Lemma process_request_scalar_blob_raises_witness :
  cookie_get (cookies (request_with_cookie (Some "a") "https")) "session_id" = Some "a" /\
  unsign toyX_int 100 43200 "a" = Some "a" /\
  utf8_decode toyX_int "a" = Some "a" /\
  redis_get (mkWorld 100 1 [("warehouse/session/data/a", ("\005", 200))] [])
    ("warehouse/session/data/" ++ "a") = Some "\005" /\
  unpackb toyX_int "\005" = Unpacked (PInt 5) /\
  True /\
  _process_request toyX_int (request_with_cookie (Some "a") "https")
    (mkWorld 100 1 [("warehouse/session/data/a", ("\005", 200))] [])
  = Err TypeError.
Proof.
  do 6 (split; [exact I || reflexivity |]).
  exact (process_request_scalar_blob_raises toyX_int (request_with_cookie (Some "a") "https")
           (mkWorld 100 1 [("warehouse/session/data/a", ("\005", 200))] [])
           "a" "a" "a" "\005" (PInt 5) eq_refl eq_refl eq_refl eq_refl eq_refl I).
Defined.

(** A session that was neither invalidated nor changed makes
    [_process_response] do nothing: no Redis write, no cookie instruction,
    and no identifier is generated. *)
Theorem process_response_untouched :
  forall (X : Externals) (request : Request) (s : Session) (w : World),
    invalidated s = false -> _changed s = false ->
    _process_response X request s w = (Ok [], s, w).
Proof.
  intros X request s w Hi Hc.
  unfold _process_response, should_save. unfold_monad. cbn.
  rewrite Hi. cbn. rewrite Hc. reflexivity.
Qed.

Lemma process_response_untouched_witness :
  invalidated (mkSession [("a", PInt 1)] (Some "z") false false 0 false) = false /\
  _changed (mkSession [("a", PInt 1)] (Some "z") false false 0 false) = false /\
  _process_response toyX (mkRequest [] "https")
    (mkSession [("a", PInt 1)] (Some "z") false false 0 false) w0
  = (Ok [], mkSession [("a", PInt 1)] (Some "z") false false 0 false, w0).
Proof.
  do 2 (split; [reflexivity |]).
  exact (process_response_untouched toyX (mkRequest [] "https")
           (mkSession [("a", PInt 1)] (Some "z") false false 0 false) w0 eq_refl eq_refl).
Defined.

(** *** The [sid] property *)

(** [session.sid] returns the stored identifier, or draws one token and
    stores it; reading it again returns the same value and changes nothing. *)
Theorem sid_lazy_and_stable :
  forall (X : Externals) (s : Session) (w : World),
    let i := match _sid s with Some x => x | None => random_token X (w_seed w) end in
    let '(o1, s1, w1) := sid X s w in
    o1 = Ok i /\ _sid s1 = Some i /\ data s1 = data s /\ _changed s1 = _changed s /\
    sid X s1 w1 = (o1, s1, w1).
Proof.
  intros X s w i. unfold sid, crypto_random_token in *. unfold_monad.
  subst i. destruct (_sid s) eqn:E; cbn; rewrite ?E; repeat split.
Qed.

(** [Session(data, session_id)] on a list of two-element [[key, value]]
    lists (what msgpack gives for a packed list of pairs) holds those pairs,
    later duplicates overwriting earlier ones, as [dict(pairs)] does. *)
Theorem session_init_pairs :
  forall (ps : list (string * pyval)) (i : option string) (nw : bool) (now : Z),
    Session_init (PList (map (fun kv => PList [PStr (fst kv); snd kv]) ps)) i nw now
    = Ok (mkSession (dict_update [] ps) i false nw now false).
Proof.
  intros ps i nw now.
  assert (H : pairs_of (map (fun kv => PList [PStr (fst kv); snd kv]) ps) = Ok ps).
  { induction ps as [| [k v] ps IH]; [reflexivity |].
    cbn [map pairs_of pair_of fst snd]. now rewrite IH. }
  unfold Session_init, dict_of. now rewrite H.
Qed.


Example dict_of_two_char_strings :
  dict_of (PList [PStr "ab"; PStr (String (Ascii.ascii_of_nat 195)
                                     (String (Ascii.ascii_of_nat 169) "c"))])
  = Ok [("a", PStr "b");
        (String (Ascii.ascii_of_nat 195) (String (Ascii.ascii_of_nat 169) ""), PStr "c")].
Proof. reflexivity. Qed.

Example dict_of_bad_elements :
  dict_of (PList [PList [PStr "a"]; PInt 1]) = Err ValueError /\
  dict_of (PList [PInt 1; PList [PStr "a"]]) = Err TypeError /\
  dict_of (PList [PList [PList []; PInt 1]]) = Err TypeError.
Proof. repeat split. Qed.
